(** * The greeting composer of wkillerud/autoformat

    The repository's executable code is one function, [greet], in two
    variants: the plain one of [src/main.mjs] and the typed one of
    [src/main.ts].  Both read the constants exported by [hello.mjs] and
    [world.mjs], style one template string with [chalk.bgMagenta] and hand it
    to [console.log].

    The embedding follows ECMAScript: a call receives a list of argument
    values, a parameter initialiser fires when the argument is [undefined],
    destructuring reads properties after a coercibility check, a template
    literal converts its substitutions with ToString, and every step may
    complete abruptly with a thrown error.  Effects are threaded through a
    state-and-error monad over the process's event trace. *)

From stdpp Require Import gmap strings list.

(** ** ECMAScript values and completions *)

Module JS.

(** The values the composer can be handed in this model: [undefined],
    [null], booleans, strings and ordinary objects given by their own data
    properties (what an object literal or [JSON.parse] builds).  Numbers,
    symbols, functions and accessor properties are outside the model. *)
#[warnings="-register-all"] Inductive value : Type :=
| VUndefined
| VNull
| VBool (b : bool)
| VString (s : string)
| VObject (props : gmap string value).

Inductive error : Type :=
| TypeError.

(** A completion record: normal with a value, or abrupt with a thrown
    error. *)
Inductive completion (A : Type) : Type :=
| Normal (a : A)
| Throw (e : error).
Arguments Normal {A} a.
Arguments Throw {A} e.

#[global] Instance completion_ret : MRet completion := λ A a, Normal a.
#[global] Instance completion_bind : MBind completion := λ A B f c,
  match c with
  | Normal a => f a
  | Throw e => Throw e
  end.

(** What the process does that can be observed: a chunk written to the
    standard output stream.  [Enter] is instrumentation: it records that
    the body of the named function started to run. *)
Inductive event : Type :=
| Enter (fn : string)
| Write (chunk : string).

Definition trace : Type := list event.

(** Computations: the trace so far goes in, a completion and the extended
    trace come out.  A throw keeps the events that preceded it. *)
Definition M (A : Type) : Type := trace → completion A * trace.

#[global] Instance M_ret : MRet M := λ A a t, (Normal a, t).
#[global] Instance M_bind : MBind M := λ A B f m t,
  match m t with
  | (Normal a, t') => f a t'
  | (Throw e, t') => (Throw e, t')
  end.

Definition lift {A : Type} (c : completion A) : M A := λ t, (c, t).
Definition emit (ev : event) : M () := λ t, (Normal (), t ++ [ev]).

Definition stdout (t : trace) : list string :=
  omap (λ ev, match ev with Write chunk => Some chunk | Enter _ => None end) t.

Definition is_enter (fn : string) (ev : event) : bool :=
  match ev with
  | Enter f => bool_decide (f = fn)
  | Write _ => false
  end.

Definition invocations (fn : string) (t : trace) : nat :=
  length (filter (λ ev, is_enter fn ev) t).

(** The property keys that the two variants of [greet] destructure. *)
Inductive key : Type :=
| Kgreeting
| Khello
| Kname.

Definition key_name (k : key) : string :=
  match k with
  | Kgreeting => "greeting"
  | Khello => "hello"
  | Kname => "name"
  end.

(** Reading property [k] in a destructuring pattern: RequireObjectCoercible
    on the value, then GetV.  An ordinary object answers with its own
    property or, none of the three keys being defined on [Object.prototype],
    with [undefined]; a primitive boolean or string is wrapped, and neither
    wrapper nor its prototype has any of the three keys. *)
Definition GetV (v : value) (k : key) : completion value :=
  match v with
  | VUndefined | VNull => Throw TypeError
  | VBool _ | VString _ => Normal VUndefined
  | VObject props => Normal (default VUndefined (props !! key_name k))
  end.

(** ToString.  For an ordinary object this is OrdinaryToPrimitive with hint
    string: an own [toString] property shadows [Object.prototype.toString]
    and, holding a data value, is not callable; [valueOf] then yields no
    primitive either (own: not callable, inherited: returns the object), so
    the conversion throws.  Without an own [toString] the inherited method
    answers with the default tag. *)
Definition ToString (v : value) : completion string :=
  match v with
  | VUndefined => Normal "undefined"
  | VNull => Normal "null"
  | VBool true => Normal "true"
  | VBool false => Normal "false"
  | VString s => Normal s
  | VObject props =>
      match props !! "toString" with
      | Some _ => Throw TypeError
      | None => Normal "[object Object]"
      end
  end.

(** The i-th actual argument of a call; a missing argument reads as
    [undefined]. *)
Definition argument (args : list value) (i : nat) : value :=
  default VUndefined (args !! i).

(** A parameter with an initialiser: the initialiser is used exactly when
    the argument is [undefined]. *)
Definition with_default (arg init : value) : value :=
  match arg with
  | VUndefined => init
  | _ => arg
  end.

Definition LF : string := String (Ascii.ascii_of_nat 10) "".

(** [console.log] with a single string argument: one write of the string
    followed by a line feed; the call evaluates to [undefined]. *)
Definition console_log (s : string) : M value :=
  emit (Write (s +:+ LF));; mret VUndefined.

(** The host: a module that evaluates normally leaves exit code 0, an
    uncaught exception leaves exit code 1. *)
Definition run (program : M value) : Z * trace :=
  match program [] with
  | (Normal _, t) => (0%Z, t)
  | (Throw _, t) => (1%Z, t)
  end.

End JS.

Import JS.

(** ** The modules the composer imports *)

(** [chalk] is a dependency, not code of the repository: its background
    styler is a parameter of the development. *)
Class Chalk : Type := bgMagenta : string → string.

(** chalk on a stream without colour support (level 0) returns its argument
    unchanged. *)
Definition chalk_level0 : Chalk := λ s, s.

(** The bindings [hello] and [world] that [main] imports. *)
Record imports : Type := Imports {
  imp_hello : value;
  imp_world : value;
}.

(** [hello.mjs], as the README gives it: [export const hello = 'Hello';] *)
Definition hello : value := VString "Hello".

(** [world.mjs], as the README gives it: [export const world = 'World';] *)
Definition world : value := VString "World".

Definition module_env : imports := Imports hello world.

(** [`${a}, ${b}`] *)
Definition template (a b : value) : completion string :=
  s1 ← ToString a; s2 ← ToString b; mret (s1 +:+ ", " +:+ s2).

(** ** [src/main.mjs] *)

Module Mjs.
Section Mjs.
Context {chalk : Chalk}.

(** [function greet({ greeting, name } = { greeting: hello, name: world })].
    The imported bindings are a parameter here, so that their influence on a
    call can be stated; [greet] below is the function closed over the
    module's own imports. *)
Definition greet_in (env : imports) (args : list value) : M value :=
  emit (Enter "greet");;
  let param :=
    with_default (argument args 0)
      (VObject {[ "greeting" := imp_hello env; "name" := imp_world env ]}) in
  greeting ← lift (GetV param Kgreeting);
  name ← lift (GetV param Kname);
  text ← lift (template greeting name);
  console_log (bgMagenta text);;
  mret VUndefined.

Definition greet : list value → M value := greet_in module_env.

(** [greet();] *)
Definition main : M value := greet [].
End Mjs.
End Mjs.

(** ** [src/main.ts] *)

Module Ts.
Section Ts.
Context {chalk : Chalk}.

Definition is_string (o : option value) : bool :=
  match o with
  | Some (VString _) => true
  | _ => false
  end.

(** [interface IGreeting { hello: string; name: string; }] as a check on
    values: types are erased before the code runs, so this is not part of
    [greet]. *)
Definition IGreeting (v : value) : bool :=
  match v with
  | VObject props => is_string (props !! "hello") && is_string (props !! "name")
  | _ => false
  end.

(** [function greet(greeting: IGreeting = { hello: hello, name: world })].
    The initialiser is evaluated in the parameter scope, where [hello] is
    still the imported binding; the body's [const { hello, name }] shadows
    it only afterwards. *)
Definition greet_in (env : imports) (args : list value) : M value :=
  emit (Enter "greet");;
  let greeting :=
    with_default (argument args 0)
      (VObject {[ "hello" := imp_hello env; "name" := imp_world env ]}) in
  hello ← lift (GetV greeting Khello);
  name ← lift (GetV greeting Kname);
  text ← lift (template hello name);
  console_log (bgMagenta text);;
  mret VUndefined.

Definition greet : list value → M value := greet_in module_env.

(** [greet();] *)
Definition main : M value := greet [].
End Ts.
End Ts.

(** ** The two variants side by side *)

Inductive variant : Type :=
| Plain
| Typed.

Definition greet_in_of {chalk : Chalk} (v : variant) : imports → list value → M value :=
  match v with
  | Plain => Mjs.greet_in
  | Typed => Ts.greet_in
  end.

Definition greet_of {chalk : Chalk} (v : variant) : list value → M value :=
  match v with
  | Plain => Mjs.greet
  | Typed => Ts.greet
  end.

Definition main_of {chalk : Chalk} (v : variant) : M value :=
  match v with
  | Plain => Mjs.main
  | Typed => Ts.main
  end.

(** The key under which a variant reads the greeting word. *)
Definition word_key (v : variant) : key :=
  match v with
  | Plain => Kgreeting
  | Typed => Khello
  end.

(** The object literal of a variant's parameter initialiser. *)
Definition default_input (v : variant) (env : imports) : value :=
  VObject {[ key_name (word_key v) := imp_hello env; "name" := imp_world env ]}.

(** The text a variant composes from the value bound to its parameter. *)
Definition line_of (v : variant) (param : value) : completion string :=
  word ← GetV param (word_key v); name ← GetV param Kname; template word name.

(** The events one successful call appends to the trace. *)
Definition greeted {chalk : Chalk} (text : string) : trace :=
  [Enter "greet"; Write (bgMagenta text +:+ LF)].

(** ECMAScript does not tell a missing argument from the value [undefined]:
    the input is omitted when the first argument reads as [undefined], and
    supplied otherwise. *)
Definition omitted (args : list value) : Prop := argument args 0 = VUndefined.
Definition supplied (args : list value) : Prop := argument args 0 ≠ VUndefined.

(** A property read that finds no property or finds text, and the text the
    template literal makes of it. *)
Definition text_or_missing (o : option value) : bool :=
  match o with
  | None | Some (VString _) => true
  | Some _ => false
  end.

Definition field_text (o : option value) : string :=
  match o with
  | Some (VString s) => s
  | _ => "undefined"
  end.

(** The inputs of the spec's examples. *)
Definition hi_alice : value :=
  VObject {[ "greeting" := VString "Hi"; "name" := VString "Alice" ]}.
Definition hello_hi_alice : value :=
  VObject {[ "hello" := VString "Hi"; "name" := VString "Alice" ]}.
Definition only_hi : value :=
  VObject {[ "greeting" := VString "Hi" ]}.
Definition empty_fields : value :=
  VObject {[ "greeting" := VString ""; "name" := VString "" ]}.

(** The input object of a variant that holds the given word and name as
    text: [{greeting: word, name: name}] for the plain variant,
    [{hello: word, name: name}] for the typed one. *)
Definition input_of (v : variant) (word name : string) : value :=
  VObject {[ key_name (word_key v) := VString word; "name" := VString name ]}.

(** A property read whose result the template literal cannot convert: an
    object that has an own [toString] property. *)
Definition unprintable (o : option value) : Prop :=
  ∃ q : gmap string value, o = Some (VObject q) ∧ is_Some (q !! "toString").

(** * Properties *)

Section Run.
Context {chalk : Chalk}.

(** Every call enters the body once, then either writes the composed line
    and returns [undefined], or throws before writing anything. *)
Lemma greet_in_of_run (v : variant) (env : imports) (args : list value) (t : trace) :
  greet_in_of v env args t =
    match line_of v (with_default (argument args 0) (default_input v env)) with
    | Normal text => (Normal VUndefined, t ++ greeted text)
    | Throw e => (Throw e, t ++ [Enter "greet"])
    end.
Proof.
  destruct v; unfold greet_in_of, Mjs.greet_in, Ts.greet_in, line_of, default_input,
    console_log, emit, lift, mbind, M_bind, completion_bind, mret, M_ret, word_key, key_name;
    match goal with |- context [with_default ?a ?b] => generalize (with_default a b) end;
    intros param.
  all: destruct (GetV param _) as [w|e1]; [|reflexivity].
  all: destruct (GetV param Kname) as [n|e2]; [|reflexivity].
  all: destruct (template w n) as [text|e3]; [|reflexivity].
  all: unfold greeted; rewrite <- app_assoc; reflexivity.
Qed.

Lemma greet_of_run (v : variant) (args : list value) (t : trace) :
  greet_of v args t =
    match line_of v (with_default (argument args 0) (default_input v module_env)) with
    | Normal text => (Normal VUndefined, t ++ greeted text)
    | Throw e => (Throw e, t ++ [Enter "greet"])
    end.
Proof. rewrite <- greet_in_of_run. destruct v; reflexivity. Qed.

Lemma stdout_app (t1 t2 : trace) : stdout (t1 ++ t2) = stdout t1 ++ stdout t2.
Proof. unfold stdout. apply omap_app. Qed.

End Run.

(** ** Evaluating the composed line *)

Lemma line_of_object (v : variant) (props : gmap string value) :
  line_of v (VObject props) =
    template (default VUndefined (props !! key_name (word_key v)))
             (default VUndefined (props !! "name")).
Proof. destruct v; reflexivity. Qed.

Lemma argument_head (arg : value) (rest : list value) :
  argument (arg :: rest) 0 = arg.
Proof. reflexivity. Qed.

Lemma with_default_supplied (arg init : value) :
  arg ≠ VUndefined → with_default arg init = arg.
Proof. destruct arg; [congruence | reflexivity..]. Qed.

(** Replaces a closed [line_of] by its value. *)
Ltac eval_line :=
  match goal with
  | |- context [line_of ?v ?p] =>
      let r := eval vm_compute in (line_of v p) in
      replace (line_of v p) with r by (vm_compute; reflexivity)
  end.

Ltac by_variant :=
  change Mjs.greet with (greet_of Plain) in *;
  change Ts.greet with (greet_of Typed) in *.

Ltac run_greet :=
  by_variant; rewrite ?greet_of_run, ?greet_in_of_run.

Section Claims.
Context {chalk : Chalk}.

(** C1.  Called with no argument, the composer (either variant) returns
    [undefined] after one write to standard output: the text "Hello, World"
    passed through the background styler, followed by a line feed. *)
Theorem greet_no_input (t : trace) :
  Mjs.greet [] t = (Normal VUndefined, t ++ greeted "Hello, World")
  ∧ Ts.greet [] t = (Normal VUndefined, t ++ greeted "Hello, World")
  ∧ stdout (Mjs.greet [] []).2 = [bgMagenta "Hello, World" +:+ LF]
  ∧ stdout (Ts.greet [] []).2 = [bgMagenta "Hello, World" +:+ LF].
Proof.
  run_greet. repeat eval_line. repeat split; reflexivity.
Qed.

(** C2, as amended.  The plain composer called with
    [{greeting: "Hi", name: "Alice"}] writes "Hi, Alice".  The typed composer
    writes "Hi, Alice" when called with [{hello: "Hi", name: "Alice"}]; the
    object [{greeting: "Hi", name: "Alice"}] does not conform to [IGreeting],
    and passed all the same it makes the typed composer write
    "undefined, Alice". *)
Theorem greet_hi_alice (t : trace) :
  Mjs.greet [hi_alice] t = (Normal VUndefined, t ++ greeted "Hi, Alice")
  ∧ Ts.greet [hello_hi_alice] t = (Normal VUndefined, t ++ greeted "Hi, Alice")
  ∧ Ts.IGreeting hello_hi_alice = true
  ∧ Ts.IGreeting hi_alice = false
  ∧ Ts.greet [hi_alice] t = (Normal VUndefined, t ++ greeted "undefined, Alice").
Proof.
  run_greet. repeat eval_line. repeat split; reflexivity.
Qed.

(** C3.  For every input object whose greeting word and subject name are
    both present as text, the composer writes the word, a comma and a space,
    then the name, passed through the background styler, and returns
    [undefined].  The word is read from [greeting] by the plain variant and
    from [hello] by the typed one. *)
Theorem greet_formats_word_comma_name
    (v : variant) (props : gmap string value) (word name : string)
    (rest : list value) (t : trace) :
  props !! key_name (word_key v) = Some (VString word) →
  props !! "name" = Some (VString name) →
  greet_of v (VObject props :: rest) t
    = (Normal VUndefined, t ++ greeted (word +:+ ", " +:+ name)).
Proof.
  intros Hword Hname. run_greet. rewrite argument_head. cbn [with_default].
  rewrite line_of_object, Hword, Hname. reflexivity.
Qed.

Lemma template_fields (a b : option value) :
  text_or_missing a → text_or_missing b →
  template (default VUndefined a) (default VUndefined b)
    = Normal (field_text a +:+ ", " +:+ field_text b).
Proof.
  destruct a as [[]|], b as [[]|]; cbn; intros Ha Hb;
    solve [reflexivity | destruct Ha | destruct Hb].
Qed.

(** A value that conforms to [IGreeting] never makes the typed composer
    throw: the type excludes the inputs on which a field is missing. *)
Lemma typed_input_is_greeted (arg : value) (rest : list value) (t : trace) :
  Ts.IGreeting arg = true →
  ∃ word name : string,
    Ts.greet (arg :: rest) t = (Normal VUndefined, t ++ greeted (word +:+ ", " +:+ name)).
Proof.
  destruct arg as [| | | |props]; try discriminate. cbn [Ts.IGreeting].
  intros [Hhello Hname]%andb_prop. run_greet. rewrite argument_head.
  cbn [with_default]. rewrite line_of_object. cbn [word_key key_name].
  destruct (props !! "hello") as [[| | |word|]|]; try discriminate.
  destruct (props !! "name") as [[| | |name|]|]; try discriminate.
  exists word, name. reflexivity.
Qed.

(** C4, as amended.  The input [null], which cannot be destructured, makes
    the composer throw a [TypeError] of the runtime with nothing written; an
    object with missing fields is no failure: each field that is absent is
    written as "undefined" and the call returns normally; and whenever the
    composer throws, standard output is left as it was. *)
Theorem greet_fault_is_type_error (v : variant) :
  (∀ rest t, greet_of v (VNull :: rest) t = (Throw TypeError, t ++ [Enter "greet"]))
  ∧ (∀ props rest t,
       text_or_missing (props !! key_name (word_key v)) →
       text_or_missing (props !! "name") →
       greet_of v (VObject props :: rest) t
         = (Normal VUndefined,
            t ++ greeted (field_text (props !! key_name (word_key v)) +:+ ", "
                          +:+ field_text (props !! "name"))))
  ∧ (∀ args t e,
       (greet_of v args t).1 = Throw e →
       stdout (greet_of v args t).2 = stdout t).
Proof.
  split; [|split].
  - intros rest t. run_greet. destruct v; reflexivity.
  - intros props rest t Hword Hname. run_greet. rewrite argument_head.
    cbn [with_default]. rewrite line_of_object, template_fields by assumption.
    reflexivity.
  - intros args t e. run_greet. destruct (line_of _ _) as [text|e']; cbn.
    + discriminate.
    + intros _. rewrite stdout_app. cbn. apply app_nil_r.
Qed.

(** C5.  Called with [{greeting: "", name: ""}] the plain composer returns
    normally and writes the styled text ", ": nothing checks that the fields
    are non-empty. *)
Theorem greet_empty_fields (t : trace) :
  Mjs.greet [empty_fields] t = (Normal VUndefined, t ++ greeted ", ")
  ∧ stdout (Mjs.greet [empty_fields] []).2 = [bgMagenta ", " +:+ LF].
Proof.
  run_greet. repeat eval_line. split; reflexivity.
Qed.

(** C6.  The composer is deterministic and carries no state from one run to
    the next: for every input there is one completion and one sequence of
    events that the call produces whatever the process has done before, so a
    second call with the same input repeats the first. *)
Theorem greet_deterministic (v : variant) (args : list value) :
  ∃ (c : completion value) (evs : trace),
    (∀ t, greet_of v args t = (c, t ++ evs))
    ∧ (∀ t, greet_of v args (greet_of v args t).2 = (c, (t ++ evs) ++ evs))
    ∧ stdout (greet_of v args []).2 = stdout evs.
Proof.
  destruct (line_of v (with_default (argument args 0) (default_input v module_env)))
    as [text|e] eqn:Hline.
  - exists (Normal VUndefined), (greeted text).
    repeat split; intros; run_greet; rewrite ?Hline; cbn [snd]; run_greet;
      rewrite ?Hline; reflexivity.
  - exists (Throw e), [Enter "greet"].
    repeat split; intros; run_greet; rewrite ?Hline; cbn [snd]; run_greet;
      rewrite ?Hline; reflexivity.
Qed.

(** C7.  A run of the program (either variant) enters the composer exactly
    once, leaves exactly one write on standard output, the styled line, and
    exits with code 0; and no call of the composer ever returns a value other
    than [undefined]. *)
Theorem program_writes_one_line (v : variant) :
  run (main_of v) = (0%Z, greeted "Hello, World")
  ∧ invocations "greet" (run (main_of v)).2 = 1
  ∧ stdout (run (main_of v)).2 = [bgMagenta "Hello, World" +:+ LF]
  ∧ (∀ args t, (greet_of v args t).1 = Normal VUndefined
               ∨ ∃ e, (greet_of v args t).1 = Throw e).
Proof.
  assert (Hrun : run (main_of v) = (0%Z, greeted "Hello, World")).
  { unfold run. replace (main_of v []) with (greet_of v [] []) by (destruct v; reflexivity).
    run_greet. destruct v; eval_line; reflexivity. }
  rewrite Hrun. repeat split.
  intros args t. run_greet. destruct (line_of _ _) as [text|e]; cbn; eauto.
Qed.

(** C8.  When the input is omitted the composer behaves as if it had been
    handed the object built from the two providers' values, which are "Hello"
    and "World"; when an input is supplied the providers' values have no
    influence on what the composer does. *)
Theorem greet_default_from_providers (v : variant) :
  hello = VString "Hello" ∧ world = VString "World"
  ∧ (∀ env args t,
       omitted args →
       greet_in_of v env args t
         = greet_in_of v env
             [VObject {[ key_name (word_key v) := imp_hello env; "name" := imp_world env ]}] t)
  ∧ (∀ args t,
       omitted args →
       greet_of v args t = (Normal VUndefined, t ++ greeted "Hello, World"))
  ∧ (∀ env env' args t,
       supplied args →
       greet_in_of v env args t = greet_in_of v env' args t).
Proof.
  repeat split.
  - intros env args t Hom. run_greet. rewrite Hom, argument_head. reflexivity.
  - intros args t Hom. run_greet. rewrite Hom. destruct v; eval_line; reflexivity.
  - intros env env' args t Hsup. run_greet.
    rewrite !with_default_supplied by exact Hsup. reflexivity.
Qed.

(** C9.  The default is all-or-nothing.  For every input object in which
    one of the two fields is text and the other is absent, whatever the
    providers' values are, the composer returns normally and writes the text
    "undefined" in the place of the absent field. *)
Theorem greet_missing_field_renders_undefined
    (v : variant) (env : imports) (props : gmap string value) (s : string)
    (rest : list value) (t : trace) :
  (props !! key_name (word_key v) = Some (VString s) →
   props !! "name" = None →
   greet_in_of v env (VObject props :: rest) t
     = (Normal VUndefined, t ++ greeted (s +:+ ", undefined")))
  ∧ (props !! key_name (word_key v) = None →
     props !! "name" = Some (VString s) →
     greet_in_of v env (VObject props :: rest) t
       = (Normal VUndefined, t ++ greeted ("undefined, " +:+ s))).
Proof.
  split; intros Hword Hname; run_greet; rewrite argument_head; cbn [with_default];
    rewrite line_of_object, Hword, Hname; reflexivity.
Qed.

(** C10.  Called with no argument the plain and the typed variant do the
    same: both write "Hello, World".  They differ on a supplied input, the
    plain variant reading the word from [greeting] and the typed one from
    [hello]. *)
Theorem variants_agree_on_default (t : trace) :
  Mjs.greet [] t = Ts.greet [] t
  ∧ Mjs.greet [] t = (Normal VUndefined, t ++ greeted "Hello, World")
  ∧ run Mjs.main = run Ts.main
  ∧ Mjs.greet [hi_alice] t = (Normal VUndefined, t ++ greeted "Hi, Alice")
  ∧ Ts.greet [hi_alice] t = (Normal VUndefined, t ++ greeted "undefined, Alice")
  ∧ Mjs.greet [hello_hi_alice] t = (Normal VUndefined, t ++ greeted "undefined, Alice")
  ∧ Ts.greet [hello_hi_alice] t = (Normal VUndefined, t ++ greeted "Hi, Alice").
Proof.
  unfold run, Mjs.main, Ts.main. run_greet. repeat eval_line. repeat split; reflexivity.
Qed.

End Claims.

(** * Instances on concrete inputs

    The statements below are closed: chalk is the level-0 styler and the
    process starts with an empty trace. *)

(** C2, refuted as stated: the typed variant does not write "Hi, Alice" when
    it is handed [{greeting: "Hi", name: "Alice"}]. *)
Lemma typed_greet_misses_greeting_field :
  ¬ (∀ v : variant,
       stdout (greet_of (chalk := chalk_level0) v [hi_alice] []).2
         = [@bgMagenta chalk_level0 "Hi, Alice" +:+ LF]).
Proof.
  intros Hall. specialize (Hall Typed). vm_compute in Hall. discriminate Hall.
Qed.

Lemma greet_formats_word_comma_name_witness :
  ({[ "greeting" := VString "Hi"; "name" := VString "Alice" ]} : gmap string value)
    !! key_name (word_key Plain) = Some (VString "Hi")
  ∧ ({[ "greeting" := VString "Hi"; "name" := VString "Alice" ]} : gmap string value)
      !! "name" = Some (VString "Alice")
  ∧ greet_of (chalk := chalk_level0) Plain [hi_alice] []
      = (Normal VUndefined, greeted (chalk := chalk_level0) "Hi, Alice").
Proof.
  split; [reflexivity|]. split; [reflexivity|].
  apply (greet_formats_word_comma_name (chalk := chalk_level0)
           Plain _ "Hi" "Alice" [] []); reflexivity.
Defined.

(** C4, refuted as stated: an object with a missing field does not make the
    composer throw. *)
Lemma missing_field_is_no_fault :
  ¬ (∃ e : error, (Mjs.greet (chalk := chalk_level0) [only_hi] []).1 = Throw e).
Proof.
  intros [e He]. vm_compute in He. discriminate He.
Qed.

Lemma greet_fault_is_type_error_witness :
  text_or_missing (({[ "greeting" := VString "Hi" ]} : gmap string value)
                     !! key_name (word_key Plain))
  ∧ text_or_missing (({[ "greeting" := VString "Hi" ]} : gmap string value) !! "name")
  ∧ greet_of (chalk := chalk_level0) Plain [only_hi] []
      = (Normal VUndefined, greeted (chalk := chalk_level0) "Hi, undefined")
  ∧ (greet_of (chalk := chalk_level0) Plain [VNull] []).1 = Throw TypeError
  ∧ stdout (greet_of (chalk := chalk_level0) Plain [VNull] []).2 = stdout [].
Proof.
  destruct (greet_fault_is_type_error (chalk := chalk_level0) Plain)
    as (Hnull & Hmissing & Hquiet).
  split; [exact I|]. split; [exact I|]. split; [|split].
  - exact (Hmissing {[ "greeting" := VString "Hi" ]} [] [] I I).
  - rewrite (Hnull [] []). reflexivity.
  - apply (Hquiet [VNull] [] TypeError). rewrite (Hnull [] []). reflexivity.
Defined.

Lemma greet_default_from_providers_witness :
  omitted []
  ∧ supplied [hi_alice]
  ∧ greet_of (chalk := chalk_level0) Plain [] []
      = (Normal VUndefined, greeted (chalk := chalk_level0) "Hello, World")
  ∧ greet_in_of (chalk := chalk_level0) Plain module_env [hi_alice] []
      = greet_in_of (chalk := chalk_level0) Plain
          (Imports (VString "Bonjour") (VString "Monde")) [hi_alice] [].
Proof.
  destruct (greet_default_from_providers (chalk := chalk_level0) Plain)
    as (_ & _ & _ & Hdefault & Hfree).
  assert (Hom : omitted []) by reflexivity.
  assert (Hsup : supplied [hi_alice]) by (intros Heq; discriminate Heq).
  split; [exact Hom|]. split; [exact Hsup|]. split.
  - apply (Hdefault [] [] Hom).
  - apply (Hfree module_env (Imports (VString "Bonjour") (VString "Monde"))
             [hi_alice] [] Hsup).
Defined.

Lemma greet_missing_field_renders_undefined_witness :
  (({[ "greeting" := VString "Hi" ]} : gmap string value)
     !! key_name (word_key Plain) = Some (VString "Hi")
   ∧ ({[ "greeting" := VString "Hi" ]} : gmap string value) !! "name" = None
   ∧ greet_in_of (chalk := chalk_level0) Plain module_env [only_hi] []
       = (Normal VUndefined, greeted (chalk := chalk_level0) "Hi, undefined"))
  ∧ (({[ "name" := VString "Alice" ]} : gmap string value)
       !! key_name (word_key Typed) = None
     ∧ ({[ "name" := VString "Alice" ]} : gmap string value)
         !! "name" = Some (VString "Alice")
     ∧ greet_in_of (chalk := chalk_level0) Typed module_env
         [VObject {[ "name" := VString "Alice" ]}] []
         = (Normal VUndefined, greeted (chalk := chalk_level0) "undefined, Alice")).
Proof.
  split; (split; [reflexivity|]); (split; [reflexivity|]).
  - apply (proj1 (greet_missing_field_renders_undefined (chalk := chalk_level0)
                    Plain module_env {[ "greeting" := VString "Hi" ]} "Hi" [] []));
      reflexivity.
  - apply (proj2 (greet_missing_field_renders_undefined (chalk := chalk_level0)
                    Typed module_env {[ "name" := VString "Alice" ]} "Alice" [] []));
      reflexivity.
Defined.

(** * Further properties of the composer *)

Lemma append_assoc (a b c : string) : (a +:+ b) +:+ c = a +:+ (b +:+ c).
Proof.
  induction a as [|ch a IH]; [reflexivity|].
  exact (f_equal (String ch) IH).
Qed.

Lemma ToString_throws (x : value) :
  (∃ e, ToString x = Throw e)
  ↔ ∃ q : gmap string value, x = VObject q ∧ is_Some (q !! "toString").
Proof.
  split.
  - destruct x as [| |[]| |q]; cbn; intros [e He]; try discriminate.
    exists q. split; [reflexivity|]. destruct (q !! "toString"); [eauto | discriminate].
  - intros (q & -> & [y Hy]). cbn. rewrite Hy. eauto.
Qed.

Lemma unprintable_throws (o : option value) :
  unprintable o ↔ ∃ e, ToString (default VUndefined o) = Throw e.
Proof.
  rewrite ToString_throws. unfold unprintable. split.
  - intros (q & -> & Hq). eauto.
  - intros (q & Hq & Hts). exists q. split; [|exact Hts].
    destruct o as [x|]; cbn in Hq; [congruence | discriminate].
Qed.

Lemma template_throws (a b : value) :
  (∃ e, template a b = Throw e)
  ↔ (∃ e, ToString a = Throw e) ∨ (∃ e, ToString b = Throw e).
Proof.
  unfold template. cbn [mbind completion_bind mret completion_ret].
  destruct (ToString a) as [sa|ea], (ToString b) as [sb|eb]; cbn; split.
  all: try (intros [e He]; discriminate He).
  all: try (intros [[e He]|[e He]]; discriminate He).
  all: eauto.
Qed.

Lemma template_strings (a b : string) :
  template (VString a) (VString b) = Normal (a +:+ ", " +:+ b).
Proof. reflexivity. Qed.

Lemma template_ext (a a' b b' : value) :
  ToString a = ToString a' → ToString b = ToString b' → template a b = template a' b'.
Proof. unfold template. intros -> ->. reflexivity. Qed.

Section Further.
Context {chalk : Chalk}.

Lemma greet_of_object (v : variant) (props : gmap string value) (rest : list value) (t : trace) :
  greet_of v (VObject props :: rest) t =
    match template (default VUndefined (props !! key_name (word_key v)))
                   (default VUndefined (props !! "name")) with
    | Normal text => (Normal VUndefined, t ++ greeted text)
    | Throw e => (Throw e, t ++ [Enter "greet"])
    end.
Proof. run_greet. rewrite argument_head. cbn [with_default]. rewrite line_of_object. reflexivity. Qed.

Lemma word_key_not_name (v : variant) : key_name (word_key v) ≠ "name".
Proof. destruct v; discriminate. Qed.


(** X2.  Only the first argument is read, and an explicit [undefined] there
    is the same as no argument at all: the initialiser is used. *)
Theorem greet_first_argument_only
    (v : variant) (env : imports) (arg : value) (rest : list value) (t : trace) :
  greet_in_of v env (arg :: rest) t = greet_in_of v env [arg] t
  ∧ greet_in_of v env (VUndefined :: rest) t = greet_in_of v env [] t
  ∧ greet_of v (VUndefined :: rest) t = (Normal VUndefined, t ++ greeted "Hello, World").
Proof.
  split; [|split]; run_greet; rewrite ?argument_head; try reflexivity.
  cbn [with_default]. destruct v; eval_line; reflexivity.
Qed.

(** X3.  A primitive string or boolean passed as the input is not rejected:
    neither has the fields the composer reads, so the line written is
    "undefined, undefined". *)
Theorem greet_primitive_input (v : variant) (env : imports) (rest : list value) (t : trace) :
  (∀ s : string,
     greet_in_of v env (VString s :: rest) t
       = (Normal VUndefined, t ++ greeted "undefined, undefined"))
  ∧ (∀ b : bool,
       greet_in_of v env (VBool b :: rest) t
         = (Normal VUndefined, t ++ greeted "undefined, undefined")).
Proof.
  split; intros x; run_greet; rewrite argument_head; destruct v; reflexivity.
Qed.

(** X4.  The composer reads the two fields of its variant and nothing else:
    adding, overwriting or deleting any other property of the input object
    changes nothing. *)
Theorem greet_ignores_other_fields
    (v : variant) (props : gmap string value) (k : string) (x : value)
    (rest : list value) (t : trace) :
  k ≠ key_name (word_key v) →
  k ≠ "name" →
  greet_of v (VObject (<[k := x]> props) :: rest) t = greet_of v (VObject props :: rest) t
  ∧ greet_of v (VObject (delete k props) :: rest) t = greet_of v (VObject props :: rest) t.
Proof.
  intros Hword Hname. rewrite !greet_of_object.
  rewrite !lookup_insert_ne, !lookup_delete_ne by assumption. split; reflexivity.
Qed.

(** X5.  In the line that is written, a field that is absent, a field that
    holds [undefined] and a field that holds the text "undefined" cannot be
    told apart. *)
Theorem greet_absent_undefined_alike
    (v : variant) (props : gmap string value) (k : string)
    (rest : list value) (t : trace) :
  greet_of v (VObject (<[k := VUndefined]> props) :: rest) t
    = greet_of v (VObject (delete k props) :: rest) t
  ∧ greet_of v (VObject (<[k := VString "undefined"]> props) :: rest) t
      = greet_of v (VObject (delete k props) :: rest) t.
Proof.
  rewrite !greet_of_object.
  assert (Hfield : ∀ (j : string) (x : value),
            ToString x = Normal "undefined" →
            ToString (default VUndefined (<[k := x]> props !! j))
              = ToString (default VUndefined (delete k props !! j))).
  { intros j x Hx. destruct (decide (k = j)) as [->|Hne].
    - rewrite lookup_insert_eq, lookup_delete_eq. exact Hx.
    - rewrite lookup_insert_ne, lookup_delete_ne by exact Hne. reflexivity. }
  split.
  - rewrite (template_ext _ _ _ _ (Hfield _ VUndefined eq_refl) (Hfield _ VUndefined eq_refl)).
    reflexivity.
  - rewrite (template_ext _ _ _ _ (Hfield _ (VString "undefined") eq_refl)
               (Hfield _ (VString "undefined") eq_refl)).
    reflexivity.
Qed.

(** X6.  The two variants differ only in the name of the field that holds
    the word: the typed variant does on an object what the plain variant does
    on any object that has under [greeting] what the first has under [hello],
    and the same [name]; on an input that is not an object they agree. *)
Theorem variants_agree_up_to_key (rest rest' : list value) (t : trace) :
  (∀ props props' : gmap string value,
     props' !! "greeting" = props !! "hello" →
     props' !! "name" = props !! "name" →
     Mjs.greet (VObject props' :: rest') t = Ts.greet (VObject props :: rest) t)
  ∧ (∀ arg : value,
       (∀ props : gmap string value, arg ≠ VObject props) →
       Mjs.greet (arg :: rest') t = Ts.greet (arg :: rest) t).
Proof.
  split.
  - intros props props' Hword Hname. by_variant. rewrite !greet_of_object.
    cbn [word_key key_name]. rewrite Hword, Hname. reflexivity.
  - intros arg Hobj. run_greet. rewrite !argument_head.
    destruct arg as [| | | |props]; try reflexivity.
    destruct (Hobj props eq_refl).
Qed.

(** X7.  A call of the typed variant that passes the type check cannot
    throw: an argument that conforms to [IGreeting] is an object whose
    [hello] and [name] are text, and the line written is made of exactly these
    two texts. *)
Theorem typed_call_never_throws (arg : value) (rest : list value) (t : trace) :
  Ts.IGreeting arg = true →
  ∃ (props : gmap string value) (word name : string),
    arg = VObject props
    ∧ props !! "hello" = Some (VString word)
    ∧ props !! "name" = Some (VString name)
    ∧ Ts.greet (arg :: rest) t
        = (Normal VUndefined, t ++ greeted (word +:+ ", " +:+ name)).
Proof.
  destruct arg as [| | | |props]; try discriminate. cbn [Ts.IGreeting].
  intros [Hhello Hname]%andb_prop. by_variant. rewrite greet_of_object.
  cbn [word_key key_name].
  destruct (props !! "hello") as [[| | |word|]|] eqn:Hw; try discriminate.
  destruct (props !! "name") as [[| | |name|]|] eqn:Hn; try discriminate.
  exists props, word, name. repeat split; assumption || reflexivity.
Qed.

(** X8.  The line does not determine the input: the separator is not
    escaped, so a word that ends in ", b" and a name that starts with "b, "
    give the same line. *)
Theorem greet_line_is_ambiguous
    (v : variant) (a b c : string) (rest : list value) (t : trace) :
  greet_of v (input_of v (a +:+ ", " +:+ b) c :: rest) t
    = greet_of v (input_of v a (b +:+ ", " +:+ c) :: rest) t.
Proof.
  unfold input_of. rewrite !greet_of_object.
  rewrite !lookup_insert_eq, !lookup_insert_ne, !lookup_singleton_eq
    by apply word_key_not_name.
  cbn [default from_option id]. rewrite !template_strings, !append_assoc. reflexivity.
Qed.


End Further.

(** ** Instances of the further properties *)


Lemma greet_ignores_other_fields_witness :
  "hello" ≠ key_name (word_key Plain)
  ∧ "hello" ≠ "name"
  ∧ greet_of (chalk := chalk_level0) Plain
      [VObject (<["hello" := VString "Hey"]>
                  {[ "greeting" := VString "Hi"; "name" := VString "Alice" ]})] []
    = greet_of (chalk := chalk_level0) Plain
        [VObject {[ "greeting" := VString "Hi"; "name" := VString "Alice" ]}] [].
Proof.
  assert (Hword : "hello" ≠ key_name (word_key Plain)) by discriminate.
  assert (Hname : "hello" ≠ "name") by discriminate.
  split; [exact Hword|]. split; [exact Hname|].
  exact (proj1 (greet_ignores_other_fields (chalk := chalk_level0) Plain
                  {[ "greeting" := VString "Hi"; "name" := VString "Alice" ]}
                  "hello" (VString "Hey") [] [] Hword Hname)).
Defined.

Lemma variants_agree_up_to_key_witness :
  (({[ "greeting" := VString "Hi"; "name" := VString "Alice" ]} : gmap string value)
     !! "greeting"
   = ({[ "hello" := VString "Hi"; "name" := VString "Alice" ]} : gmap string value)
       !! "hello")
  ∧ (({[ "greeting" := VString "Hi"; "name" := VString "Alice" ]} : gmap string value)
       !! "name"
     = ({[ "hello" := VString "Hi"; "name" := VString "Alice" ]} : gmap string value)
         !! "name")
  ∧ Mjs.greet (chalk := chalk_level0) [hi_alice] []
      = Ts.greet (chalk := chalk_level0) [hello_hi_alice] []
  ∧ (∀ props : gmap string value, VBool true ≠ VObject props)
  ∧ Mjs.greet (chalk := chalk_level0) [VBool true] []
      = Ts.greet (chalk := chalk_level0) [VBool true] [].
Proof.
  destruct (variants_agree_up_to_key (chalk := chalk_level0) [] [] [])
    as [Hobject Hother].
  assert (Hbool : ∀ props : gmap string value, VBool true ≠ VObject props)
    by (intros props Heq; discriminate Heq).
  split; [reflexivity|]. split; [reflexivity|]. split; [|split].
  - exact (Hobject {[ "hello" := VString "Hi"; "name" := VString "Alice" ]}
             {[ "greeting" := VString "Hi"; "name" := VString "Alice" ]}
             eq_refl eq_refl).
  - exact Hbool.
  - exact (Hother (VBool true) Hbool).
Defined.

Lemma typed_call_never_throws_witness :
  Ts.IGreeting hello_hi_alice = true
  ∧ ∃ (props : gmap string value) (word name : string),
      hello_hi_alice = VObject props
      ∧ props !! "hello" = Some (VString word)
      ∧ props !! "name" = Some (VString name)
      ∧ Ts.greet (chalk := chalk_level0) [hello_hi_alice] []
          = (Normal VUndefined, [] ++ greeted (chalk := chalk_level0) (word +:+ ", " +:+ name)).
Proof.
  split; [reflexivity|].
  apply (typed_call_never_throws (chalk := chalk_level0) hello_hi_alice [] []).
  reflexivity.
Defined.

